(** * attendance_monitor: the model layer of [control/models.py]

    A shallow embedding of [CustomUserManager], [AccessToken] and [Course]
    together with the properties their specification states.

    Conventions.
    - A [datetime] is an integer count of microseconds on the UTC time line
      and [timedelta(seconds=n)] is [n * 1_000_000] of them; the calendar
      range of Python's [datetime] is not modelled.
    - A Python [int] is a [Z]; [None] is the [None] of an [option].
    - Python's truth test ([not x], [x or y]) is written out: [None], [0] and
      the empty string are false.
    - Methods run in a small state-and-exception monad over [World], which
      holds what the code reads and writes outside its own arguments: the
      clock, the operating system's entropy and the database tables.
    - The relational store is assumed to accept every row it is given;
      constraint violations raised by the database are outside this layer. *)

From Stdlib Require Import ZArith NArith List String Ascii Bool Lia.
From Stdlib.Strings Require Import Byte.
From Stdlib Require Import DecimalString.
From Stdlib Require DecimalPos DecimalZ.
From stdpp Require Import base option gmap strings.

Local Open Scope string_scope.
Local Open Scope Z_scope.

(** ** Python values and exceptions *)

(** The values that travel through [**extra_fields] and live in a model
    instance's attribute dictionary. *)
Inductive pyval : Type :=
| VNone
| VBool (b : bool)
| VInt (n : Z)
| VStr (s : string)
| VDateTime (t : Z).

Inductive exn : Type :=
| ValueError (msg : string)
| TypeError (msg : string).

Inductive outcome (A : Type) : Type :=
| Return (a : A)
| Raise (e : exn).
Arguments Return {A} a.
Arguments Raise {A} e.

(** [x is True]: identity with the singleton [True]; [1] is not [True]. *)
Definition is_True (v : option pyval) : bool :=
  match v with
  | Some (VBool true) => true
  | _ => false
  end.

(** [not s] for a [str]. *)
Definition not_str (s : string) : bool :=
  match s with
  | EmptyString => true
  | String _ _ => false
  end.

(** [not n] for an attribute holding [None] or an [int]. *)
Definition not_int (n : option Z) : bool :=
  match n with
  | None => true
  | Some k => k =? 0
  end.

(** [a or b] where [a] is [None] or an [int] and [b] an [int]. *)
Definition int_or (a : option Z) (b : Z) : Z :=
  match a with
  | None => b
  | Some k => if k =? 0 then b else k
  end.

(** [str(n)] for [None] or an [int]. *)
Definition str_int (n : option Z) : string :=
  match n with
  | None => "None"
  | Some k => NilZero.string_of_int (Z.to_int k)
  end.

(** ** Time *)

Definition datetime := Z.
Definition timedelta (seconds : Z) : Z := seconds * 1000000.

(** ** secrets.token_urlsafe *)

Module secrets.

(** The alphabet of [base64.urlsafe_b64encode]. *)
Definition alphabet : list ascii :=
  list_ascii_of_string
    "ABCDEFGHIJKLMNOPQRSTUVWXYZabcdefghijklmnopqrstuvwxyz0123456789-_".

Definition sextet (n : N) : ascii :=
  nth (N.to_nat n) alphabet "A"%char.

(** Base64 of a byte string with the trailing [=] padding stripped. *)
Fixpoint b64 (bs : list N) : list ascii :=
  match bs with
  | [] => []
  | [a] =>
      [sextet (N.shiftr a 2); sextet (N.shiftl (N.land a 3) 4)]
  | [a; b] =>
      [sextet (N.shiftr a 2);
       sextet (N.lor (N.shiftl (N.land a 3) 4) (N.shiftr b 4));
       sextet (N.shiftl (N.land b 15) 2)]
  | a :: b :: c :: rest =>
      sextet (N.shiftr a 2)
      :: sextet (N.lor (N.shiftl (N.land a 3) 4) (N.shiftr b 4))
      :: sextet (N.lor (N.shiftl (N.land b 15) 2) (N.shiftr c 6))
      :: sextet (N.land c 63)
      :: b64 rest
  end.

(** The characters RFC 3986 leaves unreserved that base64url uses. *)
Definition url_safe (c : ascii) : bool :=
  let n := N_of_ascii c in
  ((65 <=? n) && (n <=? 90) || (97 <=? n) && (n <=? 122)
   || (48 <=? n) && (n <=? 57) || (n =? 45) || (n =? 95))%N.

(** [nbytes] bytes read from the entropy source at position [pos]. *)
Definition token_bytes (entropy : nat -> byte) (pos nbytes : nat) : list N :=
  map (fun i => Byte.to_N (entropy i)) (seq pos nbytes).

Definition token_urlsafe_at (entropy : nat -> byte) (pos nbytes : nat) : string :=
  string_of_list_ascii (b64 (token_bytes entropy pos nbytes)).

End secrets.

(** ** Model instances *)

Module AccessToken.
(** One [AccessToken] instance: its primary key ([None] until the first
    insert) and the three declared fields.  [created] has no default, so a
    fresh instance holds [None] there. *)
Record t : Type := mk {
  id : option Z;
  token : string;
  created : option datetime;
  valid_time : Z
}.

(** [AccessToken()]: the field defaults. *)
Definition new : t :=
  {| id := None; token := ""; created := None; valid_time := 90 |}.

Definition with_id (k : Z) (a : t) : t :=
  {| id := Some k; token := token a; created := created a;
     valid_time := valid_time a |}.
End AccessToken.

Module Course.
(** The part of a [Course] instance its URL helpers read: the primary key
    and the column behind the nullable one-to-one [access_token]. *)
Record t : Type := mk {
  id : option Z;
  name : string;
  access_token_id : option Z
}.
End Course.

(** A [User] instance is its attribute dictionary. *)
Abbreviation User := (gmap string pyval).

Definition User_id (u : User) : option Z :=
  match u !! "id" with
  | Some (VInt k) => Some k
  | _ => None
  end.

(** ** The world outside the arguments *)

(** A table with an integer primary key handed out by the database. *)
Record table (R : Type) : Type := mk_table {
  rows : gmap Z R;
  next_pk : Z
}.
Arguments mk_table {R} rows next_pk.
Arguments rows {R} t.
Arguments next_pk {R} t.

Record World : Type := mk_world {
  clock : datetime;
  entropy : nat -> byte;
  cursor : nat;
  access_tokens : table AccessToken.t;
  users : table User
}.

(** ** The monad of model methods *)

Definition M (A : Type) : Type := World -> outcome A * World.

Definition ret {A} (a : A) : M A := fun w => (Return a, w).

Definition raise {A} (e : exn) : M A := fun w => (Raise e, w).

Definition bind {A B} (m : M A) (k : A -> M B) : M B :=
  fun w =>
    match m w with
    | (Return a, w') => k a w'
    | (Raise e, w') => (Raise e, w')
    end.

Notation "x <- m ;; k" := (bind m (fun x => k))
  (at level 100, m at next level, right associativity).

(** [django.utils.timezone.now()] reads the clock. *)
Definition now : M datetime := fun w => (Return (clock w), w).

(** [secrets.token_urlsafe(nbytes)] consumes [nbytes] bytes of entropy. *)
Definition token_urlsafe (nbytes : nat) : M string :=
  fun w =>
    (Return (secrets.token_urlsafe_at (entropy w) (cursor w) nbytes),
     {| clock := clock w; entropy := entropy w;
        cursor := (cursor w + nbytes)%nat;
        access_tokens := access_tokens w; users := users w |}).

(** [django.db.models.Model.save] on one table: an instance without a
    primary key is inserted under the next key the database hands out and
    learns that key; an instance with one replaces, or creates, the row
    under its key. *)
Definition Model_save {R} (get_id : R -> option Z) (set_id : Z -> R -> R)
    (r : R) (t : table R) : R * table R :=
  match get_id r with
  | None =>
      let r' := set_id (next_pk t) r in
      (r', {| rows := <[next_pk t := r']> (rows t);
              next_pk := next_pk t + 1 |})
  | Some k =>
      (r, {| rows := <[k := r]> (rows t);
             next_pk := Z.max (next_pk t) (k + 1) |})
  end.

Definition save_access_token (a : AccessToken.t) : M AccessToken.t :=
  fun w =>
    let '(a', t') :=
      Model_save AccessToken.id AccessToken.with_id a (access_tokens w) in
    (Return a',
     {| clock := clock w; entropy := entropy w; cursor := cursor w;
        access_tokens := t'; users := users w |}).

Definition save_user (u : User) : M User :=
  fun w =>
    let '(u', t') :=
      Model_save User_id (fun k => <["id" := VInt k]>) u (users w) in
    (Return u',
     {| clock := clock w; entropy := entropy w; cursor := cursor w;
        access_tokens := access_tokens w; users := t' |}).

(** ** AccessToken *)

(** [[
    def save(self, *args, **kwargs):
        if not self.id:
            self.created = timezone.now()
            self.token = secrets.token_urlsafe(10)
        return super().save( *args, **kwargs)
    ]]
    The method mutates [self]; the instance after the call is the result. *)
Definition save (self : AccessToken.t) : M AccessToken.t :=
  if not_int (AccessToken.id self) then
    t <- now ;;
    s <- token_urlsafe 10 ;;
    save_access_token
      {| AccessToken.id := AccessToken.id self;
         AccessToken.token := s;
         AccessToken.created := Some t;
         AccessToken.valid_time := AccessToken.valid_time self |}
  else
    save_access_token self.

(** [[
    def is_token_valid(self, given_token):
        if self.token == given_token:
            return True
        return False
    ]] *)
Definition is_token_valid (self : AccessToken.t) (given_token : string) : M bool :=
  if String.eqb (AccessToken.token self) given_token then ret true
  else ret false.

(** [[
    def is_token_expired(self, custom_valid_time=None):
        expiration_time = self.created + timedelta(
            seconds=(custom_valid_time or self.valid_time)*60)
        if timezone.now() < expiration_time:
            return False
        return True
    ]]
    Adding a [timedelta] to the [None] of an instance never saved raises
    [TypeError]. *)
Definition is_token_expired (self : AccessToken.t)
    (custom_valid_time : option Z) : M bool :=
  let delta :=
    timedelta (int_or custom_valid_time (AccessToken.valid_time self) * 60) in
  match AccessToken.created self with
  | None =>
      raise (TypeError
        "unsupported operand type(s) for +: 'NoneType' and 'datetime.timedelta'")
  | Some created =>
      let expiration_time := created + delta in
      t <- now ;;
      if t <? expiration_time then ret false else ret true
  end.

(** ** Course *)

(** What reading the one-to-one attribute [self.access_token] gives: the
    related instance, [None] for a null column, or the
    [RelatedObjectDoesNotExist] (an [AttributeError]) of a dangling key. *)
Inductive related : Type :=
| Related (a : AccessToken.t)
| Null
| DoesNotExist.

Definition access_token (self : Course.t) (w : World) : related :=
  match Course.access_token_id self with
  | None => Null
  | Some k =>
      match rows (access_tokens w) !! k with
      | Some a => Related a
      | None => DoesNotExist
      end
  end.

(** [hasattr(self, 'access_token')]: false exactly when the read raises
    [AttributeError]. *)
Definition hasattr_access_token (self : Course.t) (w : World) : bool :=
  match access_token self w with
  | DoesNotExist => false
  | _ => true
  end.

(** The truth value of what [self.access_token] returned; a model instance
    is always true. *)
Definition truthy_related (r : related) : bool :=
  match r with
  | Related _ => true
  | _ => false
  end.

Section Routes.

(** [django.urls.reverse(viewname, args=...)]; the URL configuration lives
    outside this module, so the resolver is a parameter.  It may raise. *)
Variable reverse : string -> list string -> M string.

(** [[
    def get_absolute_student_register_url(self):
        if hasattr(self, 'access_token') and self.access_token:
            token = self.access_token.token
        else:
            token = ""
        return reverse('student:register_course', args=[str(self.id), token])
    ]] *)
Definition get_absolute_student_register_url (self : Course.t) : M string :=
  fun w =>
    let token :=
      if hasattr_access_token self w && truthy_related (access_token self w)
      then
        match access_token self w with
        | Related a => AccessToken.token a
        | _ => ""
        end
      else "" in
    reverse "student:register_course" [str_int (Course.id self); token] w.

End Routes.

(** ** CustomUserManager *)

(** The concrete fields of [User]: those of [AbstractUser] and the three the
    class body adds or overrides. *)
Definition User_defaults (date_joined : datetime) : User :=
  list_to_map
    [("id", VNone); ("password", VStr ""); ("last_login", VNone);
     ("is_superuser", VBool false); ("username", VStr "");
     ("first_name", VStr ""); ("last_name", VStr "");
     ("email", VStr ""); ("is_staff", VBool false);
     ("is_active", VBool true); ("date_joined", VDateTime date_joined);
     ("is_student", VBool false); ("is_teacher", VBool false)].

(** [self.model( **kwargs)]: every field takes its keyword argument or its
    default; [date_joined] defaults to [timezone.now].  The keyword
    arguments are taken to name fields of the model. *)
Definition model (kwargs : gmap string pyval) : M User :=
  t <- now ;;
  ret (kwargs ∪ User_defaults t).

(** [dict.setdefault(key, default)]. *)
Definition setdefault (key : string) (default : pyval)
    (d : gmap string pyval) : gmap string pyval :=
  match d !! key with
  | Some _ => d
  | None => <[key := default]> d
  end.

Section CustomUserManager.

(** [BaseUserManager.normalize_email] and the password hasher behind
    [AbstractBaseUser.set_password] belong to the framework. *)
Variable normalize_email : string -> string.
Variable make_password : option string -> string.

(** [user.set_password(raw_password)]. *)
Definition set_password (raw_password : option string) (user : User) : User :=
  <["password" := VStr (make_password raw_password)]> user.

(** [[
    def create_user(self, email, password, **extra_fields):
        if not email:
            raise ValueError(_('The Email must be set'))
        email = self.normalize_email(email)
        user = self.model(email=email, **extra_fields)
        user.set_password(password)
        user.save()
        return user
    ]]
    [extra_fields] holds the keyword arguments other than [email] and
    [password], which bind to the named parameters. *)
Definition create_user (email : string) (password : option string)
    (extra_fields : gmap string pyval) : M User :=
  if not_str email then
    raise (ValueError "The Email must be set")
  else
    let email := normalize_email email in
    user <- model (<["email" := VStr email]> extra_fields) ;;
    let user := set_password password user in
    user <- save_user user ;;
    ret user.

(** [[
    def create_superuser(self, email, password, **extra_fields):
        extra_fields.setdefault('is_staff', True)
        extra_fields.setdefault('is_superuser', True)
        extra_fields.setdefault('is_active', True)

        if extra_fields.get('is_staff') is not True:
            raise ValueError(_('Superuser must have is_staff=True.'))
        if extra_fields.get('is_superuser') is not True:
            raise ValueError(_('Superuser must have is_superuser=True.'))
        return self.create_user(email, password, **extra_fields)
    ]] *)
Definition create_superuser (email : string) (password : option string)
    (extra_fields : gmap string pyval) : M User :=
  let extra_fields := setdefault "is_staff" (VBool true) extra_fields in
  let extra_fields := setdefault "is_superuser" (VBool true) extra_fields in
  let extra_fields := setdefault "is_active" (VBool true) extra_fields in
  if negb (is_True (extra_fields !! "is_staff")) then
    raise (ValueError "Superuser must have is_staff=True.")
  else if negb (is_True (extra_fields !! "is_superuser")) then
    raise (ValueError "Superuser must have is_superuser=True.")
  else
    create_user email password extra_fields.

End CustomUserManager.

(** ** Vocabulary of the statements *)

(** The length of [m] minutes on the time line. *)
Definition minutes (m : Z) : Z := timedelta (m * 60).


(** Every key in use lies below the next key the database will hand out. *)
Definition keys_below {R} (t : table R) : Prop :=
  forall k r, rows t !! k = Some r -> k < next_pk t.

(** A database with no rows, its sequences at 1. *)
Definition empty_table {R} : table R := {| rows := ∅; next_pk := 1 |}.

(** A world with an empty database, the clock at [t] and entropy [e]. *)
Definition boot (t : datetime) (e : nat -> byte) : World :=
  {| clock := t; entropy := e; cursor := 0;
     access_tokens := empty_table; users := empty_table |}.

(** The token [save] draws in world [w]. *)
Definition drawn_token (w : World) : string :=
  secrets.token_urlsafe_at (entropy w) (cursor w) 10.

(** An entropy source for the examples. *)
Definition sample_entropy : nat -> byte :=
  fun i => match i with O => x00 | 1%nat => xff | 2%nat => xfb | _ => x41 end.

(** A token saved at time 0 under key 1, valid for the default 90 minutes. *)
Definition sample_token : AccessToken.t :=
  {| AccessToken.id := Some 1; AccessToken.token := "AP_7QUFBQUFBQQ";
     AccessToken.created := Some 0; AccessToken.valid_time := 90 |}.

(** A second entropy source, all bytes [0x41]. *)
Definition entropy_41 : nat -> byte := fun _ => x41.


(** Two worlds for the examples: just after boot, and a minute later. *)
Definition sample_world : World := boot 7 sample_entropy.
Definition later_world : World := boot 60000000 entropy_41.


(** Course 12, first without a token, then pointing at token row 1. *)
Definition course_without_token : Course.t :=
  {| Course.id := Some 12; Course.name := "Logic";
     Course.access_token_id := None |}.
Definition course_with_token : Course.t :=
  {| Course.id := Some 12; Course.name := "Logic";
     Course.access_token_id := Some 1 |}.

(** The world after the first save of a fresh token in [sample_world]. *)
Definition world_with_token : World :=
  snd (save AccessToken.new sample_world).

(** Framework stand-ins for the examples: a normalizer that lower-cases
    ASCII letters after the last [@] of an address, and a hasher that tags the
    raw password. *)
Definition lower_ascii (c : ascii) : ascii :=
  let n := N_of_ascii c in
  if ((65 <=? n) && (n <=? 90))%N then ascii_of_N (n + 32) else c.

Fixpoint has_at (s : string) : bool :=
  match s with
  | EmptyString => false
  | String c s' => Ascii.eqb c "@" || has_at s'
  end.

Fixpoint lower_string (s : string) : string :=
  match s with
  | EmptyString => EmptyString
  | String c s' => String (lower_ascii c) (lower_string s')
  end.

Fixpoint sample_normalize_email (s : string) : string :=
  match s with
  | EmptyString => EmptyString
  | String c s' =>
      if Ascii.eqb c "@" && negb (has_at s') then String c (lower_string s')
      else String c (sample_normalize_email s')
  end.

Definition sample_make_password (raw : option string) : string :=
  match raw with
  | Some p => "plain$" ++ p
  | None => "!"
  end.

(** Keyword arguments for the examples. *)
Definition no_kwargs : gmap string pyval := ∅.
Definition kwargs_not_superuser : gmap string pyval :=
  {[ "is_superuser" := VBool false ]}.

(** ** The remaining functions of the module *)

(** [[
    def generate_token():
        return secrets.token_urlsafe(10)
    ]] *)
Definition generate_token : M string := token_urlsafe 10.

Section CourseRoutes.

Variable reverse : string -> list string -> M string.

(** [[
    def get_absolute_student_url(self):
        return reverse('student:detail', args=[str(self.id)])
    ]] *)
Definition get_absolute_student_url (self : Course.t) : M string :=
  reverse "student:detail" [str_int (Course.id self)].

(** [[
    def get_absolute_student_leave_url(self):
        return reverse('student:leave_course', args=[str(self.id)])
    ]] *)
Definition get_absolute_student_leave_url (self : Course.t) : M string :=
  reverse "student:leave_course" [str_int (Course.id self)].

(** [[
    def get_absolute_teacher_url(self):
        return reverse('teacher:detail', args=[str(self.id)])
    ]] *)
Definition get_absolute_teacher_url (self : Course.t) : M string :=
  reverse "teacher:detail" [str_int (Course.id self)].

(** [[
    def get_absolute_teacher_delete_url(self):
        return reverse('teacher:delete', args=[str(self.id)])
    ]] *)
Definition get_absolute_teacher_delete_url (self : Course.t) : M string :=
  reverse "teacher:delete" [str_int (Course.id self)].

(** [[
    def get_absolute_teacher_edit_url(self):
        return reverse('teacher:edit', args=[str(self.id)])
    ]] *)
Definition get_absolute_teacher_edit_url (self : Course.t) : M string :=
  reverse "teacher:edit" [str_int (Course.id self)].

End CourseRoutes.

(** ** Further vocabulary *)

(** The world [d] microseconds later: only the clock has moved. *)
Definition advance (d : Z) (w : World) : World :=
  {| clock := clock w + d; entropy := entropy w; cursor := cursor w;
     access_tokens := access_tokens w; users := users w |}.

(** The position of a character in the base64url alphabet (64 when it is
    not in it). *)
Fixpoint position (c : ascii) (l : list ascii) : N :=
  match l with
  | [] => 0
  | x :: l' => if Ascii.eqb x c then 0 else N.succ (position c l')
  end.

Definition sextet_index (c : ascii) : N := position c secrets.alphabet.

(** The inverse of [secrets.b64]: four characters give back three bytes, a
    final group of three or two characters gives back two bytes or one. *)
Fixpoint unb64 (cs : list ascii) : list N :=
  match cs with
  | c1 :: c2 :: c3 :: c4 :: rest =>
      N.lor (N.shiftl (sextet_index c1) 2) (N.shiftr (sextet_index c2) 4)
      :: N.lor (N.shiftl (N.land (sextet_index c2) 15) 4)
               (N.shiftr (sextet_index c3) 2)
      :: N.lor (N.shiftl (N.land (sextet_index c3) 3) 6) (sextet_index c4)
      :: unb64 rest
  | [c1; c2; c3] =>
      [N.lor (N.shiftl (sextet_index c1) 2) (N.shiftr (sextet_index c2) 4);
       N.lor (N.shiftl (N.land (sextet_index c2) 15) 4)
             (N.shiftr (sextet_index c3) 2)]
  | [c1; c2] =>
      [N.lor (N.shiftl (sextet_index c1) 2) (N.shiftr (sextet_index c2) 4)]
  | _ => []
  end.

(** The byte values, for checks that run over all of them. *)
Definition all_bytes : list N := map N.of_nat (seq 0 256).

(** A resolver for the examples that keeps its single argument readable:
    the route name, a slash, the arguments one after another. *)
Definition plain_reverse (viewname : string) (args : list string) : M string :=
  ret (viewname ++ "/" ++ String.concat "" args)%string.

(** Keyword arguments for further examples. *)
Definition kwargs_staff_one : gmap string pyval := {[ "is_staff" := VInt 1 ]}.
Definition kwargs_student : gmap string pyval := {[ "is_student" := VBool true ]}.

(** The instance and the world a first save (no primary key yet) leaves
    behind; [save_first_run] below shows that [save] computes them. *)
Definition first_saved (self : AccessToken.t) (w : World) : AccessToken.t :=
  {| AccessToken.id := Some (next_pk (access_tokens w));
     AccessToken.token := drawn_token w;
     AccessToken.created := Some (clock w);
     AccessToken.valid_time := AccessToken.valid_time self |}.

Definition after_first_save (self : AccessToken.t) (w : World) : World :=
  {| clock := clock w; entropy := entropy w; cursor := (cursor w + 10)%nat;
     access_tokens :=
       {| rows := <[next_pk (access_tokens w) := first_saved self w]>
                    (rows (access_tokens w));
          next_pk := next_pk (access_tokens w) + 1 |};
     users := users w |}.

(** The world after a first user has been created in [sample_world]. *)
Definition world_with_user : World :=
  snd (create_user sample_normalize_email sample_make_password
         "root@example.org" None no_kwargs sample_world).

(** Keyword arguments of a student with a user name. *)
Definition kwargs_ada : gmap string pyval :=
  <["username" := VStr "ada"]> kwargs_student.

(** The bit identities behind [unb64], on two neighbouring bytes: the
    sextets [secrets.b64] cuts out of them are below 64, and the bytes can be
    put together again from these sextets. *)
Definition head_pair_ok (a b : N) : bool :=
  let s1 := N.shiftr a 2 in
  let s2 := N.lor (N.shiftl (N.land a 3) 4) (N.shiftr b 4) in
  ((s1 <? 64) && (s2 <? 64)
   && (N.lor (N.shiftl s1 2) (N.shiftr s2 4) =? a)
   && (N.land s2 15 =? N.shiftr b 4)
   && (N.shiftl (N.land a 3) 4 <? 64)
   && (N.lor (N.shiftl s1 2) (N.shiftr (N.shiftl (N.land a 3) 4) 4) =? a))%N.

Definition tail_pair_ok (b c : N) : bool :=
  let s3 := N.lor (N.shiftl (N.land b 15) 2) (N.shiftr c 6) in
  let s4 := N.land c 63 in
  ((s3 <? 64) && (s4 <? 64)
   && (N.lor (N.shiftl (N.shiftr b 4) 4) (N.shiftr s3 2) =? b)
   && (N.lor (N.shiftl (N.land s3 3) 6) s4 =? c)
   && (N.shiftl (N.land b 15) 2 <? 64)
   && (N.lor (N.shiftl (N.shiftr b 4) 4)
             (N.shiftr (N.shiftl (N.land b 15) 2) 2) =? b))%N.

(** * Properties *)

(** ** The token alphabet *)

Lemma alphabet_url_safe : forallb secrets.url_safe secrets.alphabet = true.
Proof. vm_compute. reflexivity. Qed.

Lemma sextet_url_safe (n : N) : secrets.url_safe (secrets.sextet n) = true.
Proof.
  unfold secrets.sextet.
  destruct (nth_in_or_default (N.to_nat n) secrets.alphabet "A"%char) as [Hin | Hd].
  - pose proof alphabet_url_safe as Hall.
    rewrite forallb_forall in Hall. apply Hall, Hin.
  - rewrite Hd. reflexivity.
Qed.

Lemma b64_url_safe : forall bs, forallb secrets.url_safe (secrets.b64 bs) = true.
Proof.
  fix IH 1.
  intros [| a [| b [| c rest]]]; cbn [secrets.b64 forallb];
    rewrite ?sextet_url_safe; try reflexivity.
  apply IH.
Qed.

(** Without padding, [n] bytes make [ceil(4n/3)] characters. *)
Lemma b64_length : forall bs,
  length (secrets.b64 bs) = ((4 * length bs + 2) / 3)%nat.
Proof.
  fix IH 1.
  intros [| a [| b [| c rest]]]; try reflexivity.
  cbn [secrets.b64 length]. rewrite IH.
  replace (4 * S (S (S (length rest))) + 2)%nat
    with (4 * length rest + 2 + 4 * 3)%nat by lia.
  rewrite Nat.div_add by lia. lia.
Qed.

Lemma string_length_of_list (l : list ascii) :
  String.length (string_of_list_ascii l) = length l.
Proof. induction l as [| c l IHl]; simpl; congruence. Qed.

Lemma token_urlsafe_at_url_safe entropy pos nbytes :
  forallb secrets.url_safe
    (list_ascii_of_string (secrets.token_urlsafe_at entropy pos nbytes)) = true.
Proof.
  unfold secrets.token_urlsafe_at.
  rewrite list_ascii_of_string_of_list_ascii. apply b64_url_safe.
Qed.

Lemma token_urlsafe_at_length entropy pos nbytes :
  String.length (secrets.token_urlsafe_at entropy pos nbytes)
  = ((4 * nbytes + 2) / 3)%nat.
Proof.
  unfold secrets.token_urlsafe_at, secrets.token_bytes.
  rewrite string_length_of_list, b64_length, length_map, length_seq.
  reflexivity.
Qed.

(** The ten bytes [save] asks for always fit the column's [max_length=20]. *)
Lemma token_urlsafe_10_length entropy pos :
  String.length (secrets.token_urlsafe_at entropy pos 10) = 14%nat.
Proof. rewrite token_urlsafe_at_length. reflexivity. Qed.

Example token_urlsafe_sample :
  secrets.token_urlsafe_at
    (fun i => match i with O => x00 | 1%nat => xff | 2%nat => xfb | _ => x41 end)
    0 10 = "AP_7QUFBQUFBQQ".
Proof. reflexivity. Qed.

(** ** The monad *)

Lemma bind_ret_l {A B} (a : A) (k : A -> M B) w : bind (ret a) k w = k a w.
Proof. reflexivity. Qed.

Lemma bind_raise {A B} (e : exn) (k : A -> M B) w :
  bind (raise e) k w = (Raise e, w).
Proof. reflexivity. Qed.

Lemma bind_assoc {A B C} (m : M A) (f : A -> M B) (g : B -> M C) w :
  bind (bind m f) g w = bind m (fun a => bind (f a) g) w.
Proof. unfold bind. destruct (m w) as [[a | e] w']; reflexivity. Qed.

(** ** The database *)


(** An insert never overwrites a row when the keys are in order. *)
Lemma next_pk_fresh {R} (t : table R) :
  keys_below t -> rows t !! next_pk t = None.
Proof.
  intros Hinv. destruct (rows t !! next_pk t) as [r0 |] eqn:E; [| reflexivity].
  apply Hinv in E. lia.
Qed.

(** ** AccessToken.is_token_valid *)

(** C5. For every AccessToken and candidate string, [is_token_valid] returns
    [True] if and only if the candidate equals the stored token; it always
    returns, raises nothing and leaves the world as it found it. *)
Theorem is_token_valid_iff_equal (self : AccessToken.t) (t : string) (w : World) :
  exists b : bool,
    is_token_valid self t w = (Return b, w)
    /\ (b = true <-> t = AccessToken.token self)
    /\ (b = false <-> t <> AccessToken.token self).
Proof.
  unfold is_token_valid.
  destruct (String.eqb (AccessToken.token self) t) eqn:E.
  - apply String.eqb_eq in E. exists true.
    repeat split; intros; congruence.
  - apply String.eqb_neq in E. exists false.
    repeat split; intros; congruence.
Qed.

(** ** AccessToken.is_token_expired *)

Lemma is_token_expired_run self c custom_valid_time w :
  AccessToken.created self = Some c ->
  is_token_expired self custom_valid_time w
  = (Return (negb (clock w <?
       c + minutes (int_or custom_valid_time (AccessToken.valid_time self)))),
     w).
Proof.
  intros Hc. unfold is_token_expired, minutes, bind, now, ret. rewrite Hc.
  cbn. destruct (clock w <? _); reflexivity.
Qed.

(** On an instance that was never saved the sum [None + timedelta] raises. *)
Lemma is_token_expired_unsaved self custom_valid_time w :
  AccessToken.created self = None ->
  exists msg, is_token_expired self custom_valid_time w = (Raise (TypeError msg), w).
Proof.
  intros Hc. unfold is_token_expired. rewrite Hc. eexists. reflexivity.
Qed.




(** The default window: valid one microsecond before the 90th minute,
    expired at it. *)
Example is_token_expired_default_edge :
  fst (is_token_expired sample_token None (boot 5399999999 sample_entropy))
    = Return false
  /\ fst (is_token_expired sample_token None (boot 5400000000 sample_entropy))
    = Return true.
Proof. split; reflexivity. Qed.



(** With the override 0 a token is still valid 89 minutes after creation. *)
Example is_token_expired_zero_override_sample :
  is_token_expired sample_token (Some 0) (boot (minutes 89) sample_entropy)
  = (Return false, boot (minutes 89) sample_entropy).
Proof. reflexivity. Qed.

(** ** AccessToken.save *)

(** The two paths of [save], by the truth value of [self.id]. *)
Lemma save_new_run self w :
  not_int (AccessToken.id self) = true ->
  save self w
  = save_access_token
      {| AccessToken.id := AccessToken.id self;
         AccessToken.token := drawn_token w;
         AccessToken.created := Some (clock w);
         AccessToken.valid_time := AccessToken.valid_time self |}
      {| clock := clock w; entropy := entropy w;
         cursor := (cursor w + 10)%nat;
         access_tokens := access_tokens w; users := users w |}.
Proof. intros H. unfold save. rewrite H. reflexivity. Qed.

Lemma save_existing_run self w :
  not_int (AccessToken.id self) = false ->
  save self w = save_access_token self w.
Proof. intros H. unfold save. rewrite H. reflexivity. Qed.

Lemma not_int_false_iff (n : option Z) :
  not_int n = false <-> exists k, n = Some k /\ k <> 0.
Proof.
  destruct n as [k |]; cbn.
  - rewrite Z.eqb_neq. split.
    + intros Hk. exists k. split; [reflexivity | exact Hk].
    + intros (k' & [= <-] & Hk). exact Hk.
  - split; [discriminate | intros (k & [=] & _)].
Qed.

(** C4. A save of an AccessToken that has no primary key yet returns, having
    drawn a fresh token (14 URL-safe characters from ten bytes of entropy)
    and read the clock; both are on the instance, under its new key, and in
    the persisted row. *)
Theorem save_first_assigns_token_and_created (self : AccessToken.t) (w : World) :
  AccessToken.id self = None ->
  exists (self' : AccessToken.t) (w' : World) (pk : Z),
    save self w = (Return self', w')
    /\ AccessToken.token self' = drawn_token w
    /\ forallb secrets.url_safe (list_ascii_of_string (AccessToken.token self')) = true
    /\ String.length (AccessToken.token self') = 14%nat
    /\ AccessToken.created self' = Some (clock w)
    /\ cursor w' = (cursor w + 10)%nat
    /\ AccessToken.id self' = Some pk
    /\ rows (access_tokens w') !! pk = Some self'.
Proof.
  intros Hid.
  rewrite save_new_run by (rewrite Hid; reflexivity).
  unfold save_access_token, Model_save.
  cbn [AccessToken.id access_tokens]. rewrite Hid.
  eexists _, _, (next_pk (access_tokens w)).
  split; [reflexivity |].
  cbn [AccessToken.with_id AccessToken.token AccessToken.created
       AccessToken.id cursor access_tokens rows].
  split; [reflexivity |].
  split; [apply token_urlsafe_at_url_safe |].
  split; [apply token_urlsafe_10_length |].
  split; [reflexivity |].
  split; [reflexivity |].
  split; [reflexivity | apply lookup_insert_eq].
Qed.

Lemma save_first_assigns_token_and_created_witness :
  AccessToken.id AccessToken.new = None
  /\ exists (self' : AccessToken.t) (w' : World) (pk : Z),
       save AccessToken.new sample_world = (Return self', w')
       /\ AccessToken.token self' = drawn_token sample_world
       /\ forallb secrets.url_safe
            (list_ascii_of_string (AccessToken.token self')) = true
       /\ String.length (AccessToken.token self') = 14%nat
       /\ AccessToken.created self' = Some (clock sample_world)
       /\ cursor w' = (cursor sample_world + 10)%nat
       /\ AccessToken.id self' = Some pk
       /\ rows (access_tokens w') !! pk = Some self'.
Proof.
  split; [reflexivity |].
  apply (save_first_assigns_token_and_created AccessToken.new
           sample_world).
  reflexivity.
Defined.

(** The first save of a fresh instance, evaluated. *)
Example save_first_sample :
  fst (save AccessToken.new sample_world)
  = Return {| AccessToken.id := Some 1; AccessToken.token := "AP_7QUFBQUFBQQ";
              AccessToken.created := Some 7; AccessToken.valid_time := 90 |}.
Proof. reflexivity. Qed.





(** [save] always returns. *)
Lemma save_returns self w : exists self' w', save self w = (Return self', w').
Proof.
  unfold save, save_access_token, bind, now, token_urlsafe.
  destruct (not_int (AccessToken.id self));
    match goal with
    | |- context [Model_save ?g ?s ?r ?t] => destruct (Model_save g s r t)
    end; eexists _, _; reflexivity.
Qed.



(** The same instance saved twice: the second save changes nothing on it. *)
Example save_twice_sample :
  match save AccessToken.new sample_world with
  | (Return a, w1) =>
      match save a w1 with
      | (Return b, w2) => b = a /\ cursor w2 = cursor w1
      | _ => False
      end
  | _ => False
  end.
Proof. split; reflexivity. Qed.

(** ** Course.get_absolute_student_register_url *)



(** ** dict.setdefault *)

Lemma setdefault_lookup key default d :
  setdefault key default d !! key
  = Some (match d !! key with Some v => v | None => default end).
Proof.
  unfold setdefault. destruct (d !! key) as [v |] eqn:E.
  - exact E.
  - apply lookup_insert_eq.
Qed.

Lemma setdefault_lookup_ne key key' default d :
  key <> key' -> setdefault key default d !! key' = d !! key'.
Proof.
  intros Hne. unfold setdefault. destruct (d !! key); [reflexivity |].
  apply lookup_insert_ne, Hne.
Qed.

(** ** CustomUserManager *)

Section CustomUserManagerFacts.

Variable normalize_email : string -> string.
Variable make_password : option string -> string.

Lemma create_user_empty password extra_fields w :
  create_user normalize_email make_password "" password extra_fields w
  = (Raise (ValueError "The Email must be set"), w).
Proof. reflexivity. Qed.




(** The flags [create_superuser] tests, after its three [setdefault]s. *)
Lemma superuser_is_staff (d : gmap string pyval) :
  setdefault "is_active" (VBool true)
    (setdefault "is_superuser" (VBool true)
       (setdefault "is_staff" (VBool true) d)) !! "is_staff"
  = Some (match d !! "is_staff" with Some v => v | None => VBool true end).
Proof.
  rewrite !setdefault_lookup_ne by discriminate. apply setdefault_lookup.
Qed.

Lemma superuser_is_superuser (d : gmap string pyval) :
  setdefault "is_active" (VBool true)
    (setdefault "is_superuser" (VBool true)
       (setdefault "is_staff" (VBool true) d)) !! "is_superuser"
  = Some (match d !! "is_superuser" with Some v => v | None => VBool true end).
Proof.
  rewrite setdefault_lookup_ne by discriminate.
  rewrite setdefault_lookup.
  rewrite setdefault_lookup_ne by discriminate. reflexivity.
Qed.



(** C10. With [is_superuser=False] requested, [create_superuser] raises one
    of its two [ValueError]s before [create_user] is reached, so the world,
    and with it the user table, is unchanged; when [is_staff] is absent or
    [True], the error is the one about [is_superuser]. *)
Theorem create_superuser_rejects_is_superuser_false (email : string)
    (password : option string) (extra_fields : gmap string pyval) (w : World) :
  extra_fields !! "is_superuser" = Some (VBool false) ->
  exists msg,
    create_superuser normalize_email make_password email password
      extra_fields w = (Raise (ValueError msg), w)
    /\ (msg = "Superuser must have is_staff=True."
        \/ msg = "Superuser must have is_superuser=True.")
    /\ (extra_fields !! "is_staff" = None
        \/ extra_fields !! "is_staff" = Some (VBool true) ->
        msg = "Superuser must have is_superuser=True.").
Proof.
  intros Hu. unfold create_superuser.
  rewrite superuser_is_staff, superuser_is_superuser, Hu.
  destruct (is_True (Some (match extra_fields !! "is_staff" with
                           | Some v => v
                           | None => VBool true
                           end))) eqn:Hs; cbn [negb is_True].
  - eexists. split; [reflexivity |]. split; [right; reflexivity |].
    intros _. reflexivity.
  - eexists. split; [reflexivity |]. split; [left; reflexivity |].
    intros [Hn | Ht]; [rewrite Hn in Hs | rewrite Ht in Hs]; discriminate Hs.
Qed.

End CustomUserManagerFacts.

(** ** The manager on concrete calls *)

Example sample_normalize_email_lowers_domain :
  sample_normalize_email "Root@Example.ORG" = "Root@example.org"
  /\ sample_normalize_email "a@b@C.de" = "a@b@c.de"
  /\ sample_normalize_email "NoDomain" = "NoDomain".
Proof. repeat split. Qed.



Lemma create_superuser_rejects_is_superuser_false_witness :
  kwargs_not_superuser !! "is_superuser" = Some (VBool false)
  /\ exists msg,
       create_superuser sample_normalize_email sample_make_password
         "root@example.org" (Some "s3cret") kwargs_not_superuser sample_world
       = (Raise (ValueError msg), sample_world)
       /\ (msg = "Superuser must have is_staff=True."
           \/ msg = "Superuser must have is_superuser=True.")
       /\ (kwargs_not_superuser !! "is_staff" = None
           \/ kwargs_not_superuser !! "is_staff" = Some (VBool true) ->
           msg = "Superuser must have is_superuser=True.").
Proof.
  split; [reflexivity |].
  apply (create_superuser_rejects_is_superuser_false sample_normalize_email
           sample_make_password "root@example.org" (Some "s3cret")
           kwargs_not_superuser sample_world).
  reflexivity.
Defined.

(** The superuser made by a call without keyword arguments, evaluated. *)
Example create_superuser_sample :
  match create_superuser sample_normalize_email sample_make_password
          "Root@Example.ORG" (Some "s3cret") no_kwargs sample_world with
  | (Return user, w') =>
      user !! "email" = Some (VStr "Root@example.org")
      /\ user !! "is_staff" = Some (VBool true)
      /\ user !! "is_superuser" = Some (VBool true)
      /\ user !! "is_active" = Some (VBool true)
      /\ user !! "is_student" = Some (VBool false)
      /\ user !! "id" = Some (VInt 1)
      /\ size (rows (users w')) = 1%nat
  | _ => False
  end.
Proof. vm_compute. repeat split. Qed.

(** A rejected superuser leaves the user table empty. *)
Example create_superuser_rejected_sample :
  create_superuser sample_normalize_email sample_make_password
    "Root@Example.ORG" (Some "s3cret") kwargs_not_superuser sample_world
  = (Raise (ValueError "Superuser must have is_superuser=True."), sample_world).
Proof. reflexivity. Qed.


(** * Further properties of the module *)

(** ** Saving a token more than once *)

Lemma save_first_run self w :
  AccessToken.id self = None ->
  save self w = (Return (first_saved self w), after_first_save self w).
Proof.
  intros Hid. rewrite save_new_run by (rewrite Hid; reflexivity).
  unfold save_access_token, Model_save.
  cbn [AccessToken.id access_tokens]. rewrite Hid. reflexivity.
Qed.

Lemma save_stored_run self k w :
  AccessToken.id self = Some k ->
  k <> 0 ->
  rows (access_tokens w) !! k = Some self ->
  k < next_pk (access_tokens w) ->
  save self w = (Return self, w).
Proof.
  intros Hid Hk Hrow Hlt.
  rewrite save_existing_run
    by (apply not_int_false_iff; exists k; split; assumption).
  unfold save_access_token, Model_save. rewrite Hid.
  rewrite (insert_id _ _ _ Hrow), Z.max_l by lia.
  destruct w as [c e n [r p] u]. reflexivity.
Qed.

(** X1. Saving a record that is stored unchanged under its non-zero key is
    a no-op: the instance comes back as it was and the world (clock,
    entropy, both tables) is exactly the world before. *)
Theorem save_of_stored_record_is_noop (self : AccessToken.t) (k : Z) (w : World) :
  AccessToken.id self = Some k ->
  k <> 0 ->
  rows (access_tokens w) !! k = Some self ->
  k < next_pk (access_tokens w) ->
  save self w = (Return self, w).
Proof. apply save_stored_run. Qed.

Lemma save_of_stored_record_is_noop_witness :
  save (first_saved AccessToken.new sample_world)
       (after_first_save AccessToken.new sample_world)
  = (Return (first_saved AccessToken.new sample_world),
     after_first_save AccessToken.new sample_world).
Proof.
  apply (save_of_stored_record_is_noop
           (first_saved AccessToken.new sample_world) 1
           (after_first_save AccessToken.new sample_world));
    [reflexivity | lia | reflexivity | reflexivity].
Defined.

(** X2. A first save followed by a second save of the returned instance:
    when the key the database hands out is not 0, the second save changes
    neither the instance nor the world, so the token is drawn once. *)
Theorem save_twice_draws_once (self : AccessToken.t) (w : World) :
  AccessToken.id self = None ->
  next_pk (access_tokens w) <> 0 ->
  exists (a : AccessToken.t) (w1 : World),
    save self w = (Return a, w1)
    /\ save a w1 = (Return a, w1)
    /\ AccessToken.token a = drawn_token w
    /\ cursor w1 = (cursor w + 10)%nat.
Proof.
  intros Hid Hpk.
  exists (first_saved self w), (after_first_save self w).
  split; [apply save_first_run, Hid |].
  split; [| split; reflexivity].
  apply (save_stored_run _ (next_pk (access_tokens w))).
  - reflexivity.
  - exact Hpk.
  - cbn [after_first_save access_tokens rows]. apply lookup_insert_eq.
  - cbn [after_first_save access_tokens next_pk]. lia.
Qed.

Lemma save_twice_draws_once_witness :
  exists (a : AccessToken.t) (w1 : World),
    save AccessToken.new sample_world = (Return a, w1)
    /\ save a w1 = (Return a, w1)
    /\ AccessToken.token a = drawn_token sample_world
    /\ cursor w1 = (cursor sample_world + 10)%nat.
Proof.
  apply (save_twice_draws_once AccessToken.new sample_world);
    [reflexivity | discriminate].
Defined.


(** X4. Under the key invariant a first save adds a row and overwrites
    none: the key it takes was free, every row present before is still
    there, and the table has one row more. *)
Theorem save_first_adds_a_row (self : AccessToken.t) (w : World) :
  AccessToken.id self = None ->
  keys_below (access_tokens w) ->
  exists (a : AccessToken.t) (w' : World) (pk : Z),
    save self w = (Return a, w')
    /\ AccessToken.id a = Some pk
    /\ rows (access_tokens w) !! pk = None
    /\ (forall k r, rows (access_tokens w) !! k = Some r ->
        rows (access_tokens w') !! k = Some r)
    /\ size (rows (access_tokens w')) = S (size (rows (access_tokens w))).
Proof.
  intros Hid Hinv. pose proof (next_pk_fresh _ Hinv) as Hfresh.
  exists (first_saved self w), (after_first_save self w),
         (next_pk (access_tokens w)).
  split; [apply save_first_run, Hid |].
  split; [reflexivity |]. split; [exact Hfresh |].
  cbn [after_first_save access_tokens rows]. split.
  - intros k r Hk. rewrite lookup_insert_ne; [exact Hk |].
    intros <-. rewrite Hfresh in Hk. discriminate Hk.
  - apply map_size_insert_None, Hfresh.
Qed.

Lemma save_first_adds_a_row_witness :
  exists (a : AccessToken.t) (w' : World) (pk : Z),
    save AccessToken.new world_with_token = (Return a, w')
    /\ AccessToken.id a = Some pk
    /\ rows (access_tokens world_with_token) !! pk = None
    /\ (forall k r, rows (access_tokens world_with_token) !! k = Some r ->
        rows (access_tokens w') !! k = Some r)
    /\ size (rows (access_tokens w')) = S (size (rows (access_tokens world_with_token))).
Proof.
  apply (save_first_adds_a_row AccessToken.new world_with_token);
    [reflexivity |].
  intros k r Hk. unfold world_with_token in *.
  rewrite (save_first_run AccessToken.new sample_world eq_refl) in *.
  cbn [snd after_first_save access_tokens rows next_pk] in *.
  destruct (decide (k = next_pk (access_tokens sample_world))) as [-> | Hne].
  - cbn. lia.
  - rewrite lookup_insert_ne in Hk by congruence. cbn in Hk.
    rewrite lookup_empty in Hk. discriminate Hk.
Defined.

(** ** A token's life after its first save *)



(** X6. Expiry is permanent: a token reported expired stays expired at every
    later instant, for the same override. *)
Theorem expired_stays_expired (self : AccessToken.t) (cvt : option Z)
    (d : Z) (w : World) :
  0 <= d ->
  is_token_expired self cvt w = (Return true, w) ->
  is_token_expired self cvt (advance d w) = (Return true, advance d w).
Proof.
  intros Hd Hexp.
  destruct (AccessToken.created self) as [c |] eqn:Hc.
  - rewrite (is_token_expired_run self c cvt w Hc) in Hexp.
    rewrite (is_token_expired_run self c cvt (advance d w) Hc).
    injection Hexp as Hb. apply negb_true_iff, Z.ltb_ge in Hb.
    cbn [advance clock].
    replace (clock w + d <? _) with false; [reflexivity |].
    symmetry. apply Z.ltb_ge. lia.
  - destruct (is_token_expired_unsaved self cvt w Hc) as [msg Hraise].
    rewrite Hraise in Hexp. discriminate Hexp.
Qed.

Lemma expired_stays_expired_witness :
  0 <= 1
  /\ is_token_expired sample_token None (boot (minutes 90) sample_entropy)
     = (Return true, boot (minutes 90) sample_entropy)
  /\ is_token_expired sample_token None
       (advance 1 (boot (minutes 90) sample_entropy))
     = (Return true, advance 1 (boot (minutes 90) sample_entropy)).
Proof.
  split; [lia |]. split; [reflexivity |].
  apply (expired_stays_expired sample_token None 1
           (boot (minutes 90) sample_entropy)); [lia | reflexivity].
Defined.





(** X9. The token a first save draws is the one string the saved instance
    accepts: [is_token_valid] answers [True] for it and [False] for every
    string whose length is not 14, the empty string among them. *)
Theorem saved_token_validates_only_itself (self : AccessToken.t) (w : World) :
  AccessToken.id self = None ->
  exists (a : AccessToken.t) (w1 : World),
    save self w = (Return a, w1)
    /\ is_token_valid a (drawn_token w) w1 = (Return true, w1)
    /\ (forall t, String.length t <> 14%nat ->
        is_token_valid a t w1 = (Return false, w1))
    /\ is_token_valid a "" w1 = (Return false, w1).
Proof.
  intros Hid.
  exists (first_saved self w), (after_first_save self w).
  split; [apply save_first_run, Hid |].
  assert (Hlen : forall t, String.length t <> 14%nat ->
    is_token_valid (first_saved self w) t (after_first_save self w)
    = (Return false, after_first_save self w)).
  { intros t Ht. unfold is_token_valid. cbn [first_saved AccessToken.token].
    destruct (String.eqb_spec (drawn_token w) t) as [<- | Hne];
      [| reflexivity].
    exfalso. apply Ht. apply token_urlsafe_10_length. }
  split; [| split; [exact Hlen | apply Hlen; discriminate]].
  unfold is_token_valid. cbn [first_saved AccessToken.token].
  rewrite String.eqb_refl. reflexivity.
Qed.

Lemma saved_token_validates_only_itself_witness :
  exists (a : AccessToken.t) (w1 : World),
    save AccessToken.new sample_world = (Return a, w1)
    /\ is_token_valid a (drawn_token sample_world) w1 = (Return true, w1)
    /\ (forall t, String.length t <> 14%nat ->
        is_token_valid a t w1 = (Return false, w1))
    /\ is_token_valid a "" w1 = (Return false, w1).
Proof.
  apply (saved_token_validates_only_itself AccessToken.new sample_world).
  reflexivity.
Defined.

(** ** The URL helpers of a course *)

Lemma to_int_regular (k : Z) :
  Z.to_int k <> Decimal.Pos Decimal.Nil /\ Z.to_int k <> Decimal.Neg Decimal.Nil.
Proof.
  destruct k as [| p | p]; cbn; split; try discriminate;
    intros [= H]; exact (DecimalPos.Unsigned.to_uint_nonnil p H).
Qed.

Lemma str_int_parse (k : Z) :
  NilZero.int_of_string (str_int (Some k)) = Some (Z.to_int k).
Proof.
  destruct (to_int_regular k) as [Hp Hn]. cbn [str_int].
  apply NilZero.isi; assumption.
Qed.

(** [str(self.id)] tells primary keys apart, and tells each from a missing
    one. *)
Lemma str_int_inj (a b : option Z) : str_int a = str_int b -> a = b.
Proof.
  destruct a as [k1 |], b as [k2 |]; intros Heq.
  - pose proof (str_int_parse k1) as H1. rewrite Heq, str_int_parse in H1.
    injection H1 as H1. f_equal.
    rewrite <- (DecimalZ.of_to k1), <- (DecimalZ.of_to k2). congruence.
  - pose proof (str_int_parse k1) as H1. rewrite Heq in H1. discriminate H1.
  - pose proof (str_int_parse k2) as H2. rewrite <- Heq in H2. discriminate H2.
  - reflexivity.
Qed.

Lemma string_app_inv_head (p x y : string) :
  (p ++ x)%string = (p ++ y)%string -> x = y.
Proof.
  induction p as [| c p IHp]; cbn; [trivial |].
  intros [= H]. apply IHp, H.
Qed.

Lemma plain_reverse_single_inj name s1 s2 w :
  plain_reverse name [s1] w = plain_reverse name [s2] w -> s1 = s2.
Proof.
  unfold plain_reverse, ret. cbn [String.concat]. intros [= H].
  apply string_app_inv_head in H. injection H as H. exact H.
Qed.

(** X10. The register URL of a course linked to a token that has just been
    saved for the first time carries the token that save drew, and carries
    the same token after the token record is saved again. *)
Theorem register_url_after_save
    (reverse : string -> list string -> M string)
    (self : AccessToken.t) (course : Course.t) (w : World) :
  AccessToken.id self = None ->
  next_pk (access_tokens w) <> 0 ->
  Course.access_token_id course = Some (next_pk (access_tokens w)) ->
  exists (a : AccessToken.t) (w1 w2 : World),
    save self w = (Return a, w1)
    /\ save a w1 = (Return a, w2)
    /\ get_absolute_student_register_url reverse course w1
       = reverse "student:register_course"
           [str_int (Course.id course); drawn_token w] w1
    /\ get_absolute_student_register_url reverse course w2
       = reverse "student:register_course"
           [str_int (Course.id course); drawn_token w] w2.
Proof.
  intros Hid Hpk Hlink.
  assert (Hrow : rows (access_tokens (after_first_save self w))
                   !! next_pk (access_tokens w) = Some (first_saved self w)).
  { cbn [after_first_save access_tokens rows]. apply lookup_insert_eq. }
  assert (Hurl :
    get_absolute_student_register_url reverse course (after_first_save self w)
    = reverse "student:register_course"
        [str_int (Course.id course); drawn_token w] (after_first_save self w)).
  { unfold get_absolute_student_register_url, hasattr_access_token, access_token.
    rewrite Hlink, Hrow. reflexivity. }
  exists (first_saved self w), (after_first_save self w),
         (after_first_save self w).
  split; [apply save_first_run, Hid |].
  split; [| split; exact Hurl].
  apply (save_stored_run _ (next_pk (access_tokens w)));
    [reflexivity | exact Hpk | exact Hrow |].
  cbn [after_first_save access_tokens next_pk]. lia.
Qed.

Lemma register_url_after_save_witness :
  exists (a : AccessToken.t) (w1 w2 : World),
    save AccessToken.new sample_world = (Return a, w1)
    /\ save a w1 = (Return a, w2)
    /\ get_absolute_student_register_url plain_reverse course_with_token w1
       = plain_reverse "student:register_course"
           [str_int (Course.id course_with_token); drawn_token sample_world] w1
    /\ get_absolute_student_register_url plain_reverse course_with_token w2
       = plain_reverse "student:register_course"
           [str_int (Course.id course_with_token); drawn_token sample_world] w2.
Proof.
  apply (register_url_after_save plain_reverse AccessToken.new
           course_with_token sample_world);
    [reflexivity | discriminate | reflexivity].
Defined.

(** X11. Each of the five one-argument URL helpers tells courses apart by
    their primary key: under a resolver that maps different arguments of a
    route to different results, two courses get the same URL from a helper
    only if their [id]s are equal (both missing included). *)
Theorem course_urls_identify_the_course
    (reverse : string -> list string -> M string)
    (c1 c2 : Course.t) (w : World) :
  (forall name s1 s2, reverse name [s1] w = reverse name [s2] w -> s1 = s2) ->
  (get_absolute_student_url reverse c1 w
   = get_absolute_student_url reverse c2 w -> Course.id c1 = Course.id c2)
  /\ (get_absolute_student_leave_url reverse c1 w
      = get_absolute_student_leave_url reverse c2 w ->
      Course.id c1 = Course.id c2)
  /\ (get_absolute_teacher_url reverse c1 w
      = get_absolute_teacher_url reverse c2 w -> Course.id c1 = Course.id c2)
  /\ (get_absolute_teacher_delete_url reverse c1 w
      = get_absolute_teacher_delete_url reverse c2 w ->
      Course.id c1 = Course.id c2)
  /\ (get_absolute_teacher_edit_url reverse c1 w
      = get_absolute_teacher_edit_url reverse c2 w ->
      Course.id c1 = Course.id c2).
Proof.
  intros Hinj.
  unfold get_absolute_student_url, get_absolute_student_leave_url,
    get_absolute_teacher_url, get_absolute_teacher_delete_url,
    get_absolute_teacher_edit_url.
  repeat split; intros H; apply str_int_inj, (Hinj _ _ _ H).
Qed.

Lemma course_urls_identify_the_course_witness :
  (forall name s1 s2,
     plain_reverse name [s1] sample_world = plain_reverse name [s2] sample_world ->
     s1 = s2)
  /\ (get_absolute_teacher_edit_url plain_reverse course_with_token sample_world
      = get_absolute_teacher_edit_url plain_reverse course_without_token
          sample_world ->
      Course.id course_with_token = Course.id course_without_token)
  /\ get_absolute_teacher_edit_url plain_reverse course_with_token sample_world
     = (Return "teacher:edit/12", sample_world).
Proof.
  split; [intros name s1 s2; apply plain_reverse_single_inj |].
  split; [| reflexivity].
  apply (course_urls_identify_the_course plain_reverse course_with_token
           course_without_token sample_world).
  intros name s1 s2. apply plain_reverse_single_inj.
Defined.

(** ** More on the user manager *)

Section CustomUserManagerMore.

Variable normalize_email : string -> string.
Variable make_password : option string -> string.



(** X13. With an empty email [create_superuser] never creates a user:
    whatever the keyword arguments, it raises [ValueError] and leaves the
    world as it was. *)
Theorem create_superuser_empty_email_raises (password : option string)
    (extra_fields : gmap string pyval) (w : World) :
  exists msg,
    create_superuser normalize_email make_password "" password extra_fields w
    = (Raise (ValueError msg), w).
Proof.
  unfold create_superuser.
  destruct (is_True (_ !! "is_staff")); cbn [negb];
    [| eexists; reflexivity].
  destruct (is_True (_ !! "is_superuser")); cbn [negb];
    [| eexists; reflexivity].
  eexists. apply create_user_empty.
Qed.

(** X14. The flag tests are identity tests against [True]: a keyword
    [is_staff] or [is_superuser] holding anything else, be it [False], [None],
    the integer [1] or a string, makes [create_superuser] raise [ValueError]
    and leave the world as it was. *)
Theorem create_superuser_rejects_all_but_True (email : string)
    (password : option string) (extra_fields : gmap string pyval)
    (v : pyval) (w : World) :
  extra_fields !! "is_staff" = Some v \/ extra_fields !! "is_superuser" = Some v ->
  v <> VBool true ->
  exists msg,
    create_superuser normalize_email make_password email password extra_fields w
    = (Raise (ValueError msg), w).
Proof.
  intros Hflag Hv. unfold create_superuser.
  rewrite superuser_is_staff, superuser_is_superuser.
  assert (Hbad : is_True (Some v) = false).
  { destruct v as [| [|] | | |]; try reflexivity. contradiction. }
  destruct Hflag as [Hs | Hu].
  - rewrite Hs, Hbad. eexists. reflexivity.
  - rewrite Hu, Hbad.
    destruct (extra_fields !! "is_staff") as [[| [|] | | |] |];
      cbn [is_True negb]; eexists; reflexivity.
Qed.


(** X16. Without the three flag keywords, [create_superuser(email,
    password, **extra)] is [create_user(email, password, is_staff=True,
    is_superuser=True, is_active=True, **extra)]: the same result and the
    same world, failures included. *)
Theorem create_superuser_is_create_user_with_flags (email : string)
    (password : option string) (extra_fields : gmap string pyval) (w : World) :
  extra_fields !! "is_staff" = None ->
  extra_fields !! "is_superuser" = None ->
  extra_fields !! "is_active" = None ->
  create_superuser normalize_email make_password email password extra_fields w
  = create_user normalize_email make_password email password
      (<["is_active" := VBool true]>
         (<["is_superuser" := VBool true]>
            (<["is_staff" := VBool true]> extra_fields))) w.
Proof.
  intros Hs Hu Ha. unfold create_superuser.
  rewrite superuser_is_staff, superuser_is_superuser, Hs, Hu.
  cbn [is_True negb]. unfold setdefault.
  rewrite Hs. rewrite lookup_insert_ne by discriminate. rewrite Hu.
  rewrite !lookup_insert_ne by discriminate. rewrite Ha. reflexivity.
Qed.


End CustomUserManagerMore.




Lemma create_superuser_rejects_all_but_True_witness :
  (kwargs_staff_one !! "is_staff" = Some (VInt 1)
   \/ kwargs_staff_one !! "is_superuser" = Some (VInt 1))
  /\ VInt 1 <> VBool true
  /\ exists msg,
       create_superuser sample_normalize_email sample_make_password
         "root@example.org" (Some "pw") kwargs_staff_one sample_world
       = (Raise (ValueError msg), sample_world).
Proof.
  split; [left; reflexivity |]. split; [discriminate |].
  apply (create_superuser_rejects_all_but_True sample_normalize_email
           sample_make_password "root@example.org" (Some "pw")
           kwargs_staff_one (VInt 1) sample_world);
    [left; reflexivity | discriminate].
Defined.


Lemma create_superuser_is_create_user_with_flags_witness :
  no_kwargs !! "is_staff" = None
  /\ no_kwargs !! "is_superuser" = None
  /\ no_kwargs !! "is_active" = None
  /\ create_superuser sample_normalize_email sample_make_password
       "root@example.org" None no_kwargs sample_world
     = create_user sample_normalize_email sample_make_password
         "root@example.org" None
         (<["is_active" := VBool true]>
            (<["is_superuser" := VBool true]>
               (<["is_staff" := VBool true]> no_kwargs))) sample_world.
Proof.
  split; [reflexivity |]. split; [reflexivity |]. split; [reflexivity |].
  apply (create_superuser_is_create_user_with_flags sample_normalize_email
           sample_make_password "root@example.org" None no_kwargs sample_world);
    reflexivity.
Defined.


(** Two users in a row, evaluated: keys 1 and 2, both rows present. *)
Example create_user_twice_sample :
  match create_user sample_normalize_email sample_make_password
          "ada@example.org" (Some "pw") kwargs_ada world_with_user with
  | (Return user, w') =>
      user !! "id" = Some (VInt 2)
      /\ size (rows (users w')) = 2%nat
      /\ (rows (users w') !! 1) ≫= (.!! "email")
         = Some (VStr "root@example.org")
  | _ => False
  end.
Proof. vm_compute. repeat split. Qed.

(** ** generate_token and the token alphabet *)

Lemma in_range (m : nat) (n : N) :
  (n < N.of_nat m)%N -> In n (map N.of_nat (seq 0 m)).
Proof.
  intros Hn. rewrite <- (N2Nat.id n). apply in_map, in_seq. lia.
Qed.

Lemma sextet_index_sextet (n : N) :
  (n < 64)%N -> sextet_index (secrets.sextet n) = n.
Proof.
  intros Hn.
  assert (Hall : forallb (fun k => (sextet_index (secrets.sextet k) =? k)%N)
                   (map N.of_nat (seq 0 64)) = true)
    by (vm_compute; reflexivity).
  rewrite forallb_forall in Hall.
  apply N.eqb_eq, Hall, (in_range 64), Hn.
Qed.

Lemma all_byte_pairs (P : N -> N -> bool) :
  forallb (fun a => forallb (P a) all_bytes) all_bytes = true ->
  forall a b, (a < 256)%N -> (b < 256)%N -> P a b = true.
Proof.
  intros Hall a b Ha Hb. rewrite forallb_forall in Hall.
  specialize (Hall a (in_range 256 a Ha)).
  rewrite forallb_forall in Hall. apply Hall, (in_range 256), Hb.
Qed.

Lemma head_pair_ok_all a b :
  (a < 256)%N -> (b < 256)%N -> head_pair_ok a b = true.
Proof. apply all_byte_pairs. vm_compute. reflexivity. Qed.

Lemma tail_pair_ok_all b c :
  (b < 256)%N -> (c < 256)%N -> tail_pair_ok b c = true.
Proof. apply all_byte_pairs. vm_compute. reflexivity. Qed.

Lemma head_pair_facts a b :
  (a < 256)%N -> (b < 256)%N ->
  (N.shiftr a 2 < 64
   /\ N.lor (N.shiftl (N.land a 3) 4) (N.shiftr b 4) < 64
   /\ N.lor (N.shiftl (N.shiftr a 2) 2)
            (N.shiftr (N.lor (N.shiftl (N.land a 3) 4) (N.shiftr b 4)) 4) = a
   /\ N.land (N.lor (N.shiftl (N.land a 3) 4) (N.shiftr b 4)) 15 = N.shiftr b 4
   /\ N.shiftl (N.land a 3) 4 < 64
   /\ N.lor (N.shiftl (N.shiftr a 2) 2)
            (N.shiftr (N.shiftl (N.land a 3) 4) 4) = a)%N.
Proof.
  intros Ha Hb. pose proof (head_pair_ok_all a b Ha Hb) as H.
  unfold head_pair_ok in H. cbv zeta in H.
  rewrite !andb_true_iff, !N.ltb_lt, !N.eqb_eq in H. tauto.
Qed.

Lemma tail_pair_facts b c :
  (b < 256)%N -> (c < 256)%N ->
  (N.lor (N.shiftl (N.land b 15) 2) (N.shiftr c 6) < 64
   /\ N.land c 63 < 64
   /\ N.lor (N.shiftl (N.shiftr b 4) 4)
            (N.shiftr (N.lor (N.shiftl (N.land b 15) 2) (N.shiftr c 6)) 2) = b
   /\ N.lor (N.shiftl
               (N.land (N.lor (N.shiftl (N.land b 15) 2) (N.shiftr c 6)) 3) 6)
            (N.land c 63) = c
   /\ N.shiftl (N.land b 15) 2 < 64
   /\ N.lor (N.shiftl (N.shiftr b 4) 4)
            (N.shiftr (N.shiftl (N.land b 15) 2) 2) = b)%N.
Proof.
  intros Hb Hc. pose proof (tail_pair_ok_all b c Hb Hc) as H.
  unfold tail_pair_ok in H. cbv zeta in H.
  rewrite !andb_true_iff, !N.ltb_lt, !N.eqb_eq in H. tauto.
Qed.

(** Decoding what [secrets.b64] wrote gives the bytes back. *)
Lemma unb64_b64 : forall bs,
  Forall (fun b => (b < 256)%N) bs -> unb64 (secrets.b64 bs) = bs.
Proof.
  fix IH 1.
  intros [| a [| b [| c rest]]] Hall.
  - reflexivity.
  - pose proof (Forall_inv Hall) as Ha.
    destruct (head_pair_facts a 0 Ha eq_refl) as (H1 & _ & _ & _ & H5 & H6).
    cbn [secrets.b64 unb64].
    rewrite !sextet_index_sextet by assumption. rewrite H6. reflexivity.
  - pose proof (Forall_inv Hall) as Ha.
    pose proof (Forall_inv (Forall_inv_tail Hall)) as Hb.
    destruct (head_pair_facts a b Ha Hb) as (H1 & H2 & H3 & H4 & _ & _).
    destruct (tail_pair_facts b 0 Hb eq_refl) as (_ & _ & _ & _ & T5 & T6).
    cbn [secrets.b64 unb64].
    rewrite !sextet_index_sextet by assumption.
    rewrite H3, H4, T6. reflexivity.
  - pose proof (Forall_inv Hall) as Ha.
    pose proof (Forall_inv (Forall_inv_tail Hall)) as Hb.
    pose proof (Forall_inv (Forall_inv_tail (Forall_inv_tail Hall))) as Hc.
    pose proof (Forall_inv_tail (Forall_inv_tail (Forall_inv_tail Hall))) as Hrest.
    destruct (head_pair_facts a b Ha Hb) as (H1 & H2 & H3 & H4 & _ & _).
    destruct (tail_pair_facts b c Hb Hc) as (T1 & T2 & T3 & T4 & _ & _).
    cbn [secrets.b64 unb64].
    rewrite !sextet_index_sextet by assumption.
    rewrite H3, H4, T3, T4, (IH rest Hrest). reflexivity.
Qed.

Lemma token_bytes_are_bytes entropy pos nbytes :
  Forall (fun b => (b < 256)%N) (secrets.token_bytes entropy pos nbytes).
Proof.
  unfold secrets.token_bytes. revert pos.
  induction nbytes as [| n IHn]; intros pos; cbn [seq map]; constructor.
  - pose proof (Byte.to_N_bounded (entropy pos)). lia.
  - apply IHn.
Qed.

(** The base64url string determines the bytes. *)
Lemma token_urlsafe_at_inj e1 p1 e2 p2 n :
  secrets.token_urlsafe_at e1 p1 n = secrets.token_urlsafe_at e2 p2 n ->
  secrets.token_bytes e1 p1 n = secrets.token_bytes e2 p2 n.
Proof.
  unfold secrets.token_urlsafe_at. intros H.
  apply (f_equal list_ascii_of_string) in H.
  rewrite !list_ascii_of_string_of_list_ascii in H.
  apply (f_equal unb64) in H.
  rewrite !unb64_b64 in H by apply token_bytes_are_bytes.
  exact H.
Qed.

(** X18. [generate_token] always returns: a string of 14 characters, all
    from the URL-safe alphabet, that fits the 20 characters of the [token]
    column; it uses up exactly ten bytes of entropy, so the next call reads
    the ten bytes after them, and it touches nothing else. *)
Theorem generate_token_shape (w : World) :
  exists (t : string) (w' : World),
    generate_token w = (Return t, w')
    /\ String.length t = 14%nat
    /\ (String.length t <= 20)%nat
    /\ forallb secrets.url_safe (list_ascii_of_string t) = true
    /\ cursor w' = (cursor w + 10)%nat
    /\ fst (generate_token w')
       = Return (secrets.token_urlsafe_at (entropy w) (cursor w + 10) 10)
    /\ clock w' = clock w
    /\ access_tokens w' = access_tokens w
    /\ users w' = users w.
Proof.
  unfold generate_token, token_urlsafe. eexists _, _.
  split; [reflexivity |].
  split; [apply token_urlsafe_10_length |].
  split; [rewrite token_urlsafe_10_length; lia |].
  split; [apply token_urlsafe_at_url_safe |].
  repeat split.
Qed.

(** X19. A token determines the random bytes it was made from: if
    [generate_token] returns the same string in two worlds, the ten entropy
    bytes read were the same.  Different bytes give different tokens. *)
Theorem generate_token_injective (w1 w2 : World) :
  fst (generate_token w1) = fst (generate_token w2) ->
  secrets.token_bytes (entropy w1) (cursor w1) 10
  = secrets.token_bytes (entropy w2) (cursor w2) 10.
Proof.
  unfold generate_token, token_urlsafe. cbn [fst]. intros H.
  apply token_urlsafe_at_inj. congruence.
Qed.

Lemma generate_token_injective_witness :
  fst (generate_token sample_world) = fst (generate_token (advance 5 sample_world))
  /\ secrets.token_bytes (entropy sample_world) (cursor sample_world) 10
     = secrets.token_bytes (entropy (advance 5 sample_world))
         (cursor (advance 5 sample_world)) 10.
Proof.
  split; [reflexivity |].
  apply (generate_token_injective sample_world (advance 5 sample_world)).
  reflexivity.
Defined.

(** Two different draws, evaluated. *)
Example generate_token_differs_sample :
  fst (generate_token sample_world) = Return "AP_7QUFBQUFBQQ"
  /\ fst (generate_token later_world) = Return "QUFBQUFBQUFBQQ".
Proof. split; reflexivity. Qed.
